(** * gendockerfile: import classification and Dockerfile rendering

    A shallow embedding of [scripts/gendockerfile.go].  Go strings are byte
    strings ([string]), the classification table [map[string]bool] is a
    [gmap string bool], the unordered [range] over that table is an explicit
    iteration order, and [main] runs in a small state-and-error monad over
    the part of the world it touches (the target file, stdout, stderr). *)

From Stdlib Require Import ZArith Ascii String List Lia.
From stdpp Require Import base option list gmap strings sorting fin_maps.

Local Open Scope Z_scope.

(** ** Go string primitives *)

Module strings.

(** [strings.IndexRune(s, c)] for a rune below [0x80]: the byte index of
    the first occurrence of [c], or [-1]. *)
Fixpoint IndexRune (s : string) (c : ascii) : Z :=
  match s with
  | EmptyString => -1
  | String a s' =>
      if Ascii.eqb a c then 0
      else let r := IndexRune s' c in
           if r =? -1 then -1 else 1 + r
  end.

End strings.

(** The slice expression [s[:r]]. *)
Definition slice_to (s : string) (r : Z) : string :=
  substring 0 (Z.to_nat r) s.

(** ** isExternal *)

Definition isExternal (importPath : string) : bool :=
  let r := strings.IndexRune importPath "/"%char in
  if r =? -1 then false
  else negb (strings.IndexRune (slice_to importPath r) "."%char =? -1).

(** ** The spec's reading of the externality rule *)

(** The words of the externality rule: [c] occurs in [s]. *)
Definition contains (c : ascii) (s : string) : Prop :=
  In c (list_ascii_of_string s).

#[global] Instance contains_dec c s : Decision (contains c s) :=
  In_dec Ascii.ascii_dec c (list_ascii_of_string s).

(** [pre] is the first path segment of [p]: what precedes its first '/'. *)
Definition first_segment (p pre : string) : Prop :=
  ¬ contains "/"%char pre ∧ ∃ post, p = (pre +:+ String "/"%char post).

Definition external_by_rule (p : string) : Prop :=
  ∃ pre, first_segment p pre ∧ contains "."%char pre.

(** ** Package records and the classification table *)

Module build.

(** The fields of [build.Package] that the program reads. *)
Record Package := mkPackage {
  ImportPath : string;
  Imports : list string;
  TestImports : list string;
  XTestImports : list string;
}.

End build.

(** The body of the inner loop: an import already in the table is skipped,
    a new one is entered with its externality. *)
Definition classify_import (externalImports : gmap string bool)
    (importPath : string) : gmap string bool :=
  match externalImports !! importPath with
  | Some _ => externalImports
  | None => <[importPath := isExternal importPath]> externalImports
  end.

(** [append(append(pkg.Imports, pkg.TestImports...), pkg.XTestImports...)] *)
Definition all_imports (pkg : build.Package) : list string :=
  (build.Imports pkg ++ build.TestImports pkg) ++ build.XTestImports pkg.

(** The body of the decode loop for one successfully decoded record. *)
Definition record_package (externalImports : gmap string bool)
    (pkg : build.Package) : gmap string bool :=
  foldl classify_import
        (<[build.ImportPath pkg := false]> externalImports)
        (all_imports pkg).

(** ** Errors, and the metadata stream read by the JSON decoder *)

Inductive error :=
| io_EOF
| json_DecodeError (msg : string)
| exec_StartError
| os_CreateError
| io_WriteError
| exec_ExitError (code : Z).

#[global] Instance error_eq_dec : EqDecision error.
Proof. solve_decision. Defined.

(** What the [go list -json] subprocess writes to its stdout: the records
    that decode, then either a clean end of stream ([None]) or the error the
    decoder reports at the first record that does not decode. *)
Record Stream := mkStream {
  records : list build.Package;
  failure : option error;
}.

Definition decode_fails (s : Stream) : Prop :=
  ∃ e, failure s = Some e ∧ e ≠ io_EOF.

Definition clean_stream (rs : list build.Package) : Stream :=
  {| records := rs; failure := None |}.

(** The [for] loop around [decoder.Decode]: [inl e] is the error handed to
    [log.Fatal], [inr m] the table at [break]. *)
Fixpoint decode_loop (pending : list build.Package) (fail : option error)
    (externalImports : gmap string bool) : error + gmap string bool :=
  match pending with
  | pkg :: rest => decode_loop rest fail (record_package externalImports pkg)
  | [] =>
      match fail with
      | Some err => if decide (err ≠ io_EOF) then inl err
                    else inr externalImports
      | None => inr externalImports
      end
  end.

(** The table after a stream of records that all decode. *)
Definition classification_table (rs : list build.Package) : gmap string bool :=
  foldl record_package ∅ rs.

(** ** Collecting and sorting the external imports *)

(** Go leaves the order of [range] over a map unspecified: an iteration
    order rearranges the entries of the table. *)
Definition range_order : Type :=
  list (string * bool) → list (string * bool).

Definition valid_order (o : range_order) : Prop :=
  ∀ kvs, o kvs ≡ₚ kvs.

(** The loop [for importPath, isExternal := range externalImports]. *)
Definition collect_external (kvs : list (string * bool)) : list string :=
  foldl (λ (Imports : list string) (kv : string * bool),
           if kv.2 then Imports ++ [kv.1] else Imports) [] kvs.

Module sort.

(** [sort.Strings]: ascending byte-wise lexicographic order. *)
Definition Strings (l : list string) : list string :=
  merge_sort String.le l.

End sort.

Definition external_imports (o : range_order) (externalImports : gmap string bool)
    : list string :=
  sort.Strings (collect_external (o (map_to_list externalImports))).

(** ** The template *)

Module template.

Inductive token :=
| TText (s : string)
| TAction (s : string).

(** Inside [{{range .Imports}}] dot is one import path. *)
Inductive item_node :=
| ItemText (s : string)
| ItemDot.

Inductive node :=
| Text (s : string)
| RangeImports (body : list item_node).

(** Split [s] at the first occurrence of the two-byte delimiter. *)
Fixpoint cut (d : ascii) (s : string) : option (string * string) :=
  match s with
  | String a (String b rest as s') =>
      if Ascii.eqb a d && Ascii.eqb b d then Some (EmptyString, rest)
      else match cut d s' with
           | Some (pre, post) => Some (String a pre, post)
           | None => None
           end
  | _ => None
  end.

Definition text_token (s : string) : list token :=
  match s with EmptyString => [] | _ => [TText s] end.

Fixpoint lex (fuel : nat) (s : string) : option (list token) :=
  match fuel with
  | O => None
  | S fuel =>
      match cut "{"%char s with
      | None => Some (text_token s)
      | Some (pre, rest) =>
          match cut "}"%char rest with
          | None => None
          | Some (action, post) =>
              match lex fuel post with
              | Some ts => Some (text_token pre ++ TAction action :: ts)
              | None => None
              end
          end
      end
  end.

(** The body of a range, up to its [{{end}}]. *)
Fixpoint parse_items (ts : list token)
    : option (list item_node * list token) :=
  match ts with
  | [] => None
  | TText s :: ts =>
      match parse_items ts with
      | Some (body, rest) => Some (ItemText s :: body, rest)
      | None => None
      end
  | TAction a :: ts =>
      if String.eqb a "end" then Some ([], ts)
      else if String.eqb a "." then
        match parse_items ts with
        | Some (body, rest) => Some (ItemDot :: body, rest)
        | None => None
        end
      else None
  end.

Fixpoint parse_nodes (fuel : nat) (ts : list token) : option (list node) :=
  match fuel, ts with
  | O, _ => None
  | S _, [] => Some []
  | S fuel, TText s :: ts =>
      match parse_nodes fuel ts with
      | Some ns => Some (Text s :: ns)
      | None => None
      end
  | S fuel, TAction a :: ts =>
      if String.eqb a "range .Imports" then
        match parse_items ts with
        | Some (body, rest) =>
            match parse_nodes fuel rest with
            | Some ns => Some (RangeImports body :: ns)
            | None => None
            end
        | None => None
        end
      else None
  end.

Definition Parse (text : string) : option (list node) :=
  match lex (S (String.length text)) text with
  | Some ts => parse_nodes (S (length ts)) ts
  | None => None
  end.

(** [template.Must] panics on a parse error; the program then never
    reaches [main], which the empty template stands for. *)
Definition Must (t : option (list node)) : list node :=
  match t with Some ns => ns | None => [] end.

Definition exec_item (dot : string) (n : item_node) : string :=
  match n with
  | ItemText s => s
  | ItemDot => dot
  end.

(** One pass through the body of a range. *)
Definition exec_items (body : list item_node) (dot : string) : string :=
  String.concat EmptyString (map (exec_item dot) body).

Definition exec_node (Imports : list string) (n : node) : string :=
  match n with
  | Text s => s
  | RangeImports body =>
      String.concat EmptyString (map (exec_items body) Imports)
  end.

(** Everything [Execute] writes, in order. *)
Definition Execute (t : list node) (Imports : list string) : string :=
  String.concat EmptyString (map (exec_node Imports) t).

End template.

Definition LF : string := String "010"%char EmptyString.

(** The slice expression [s[1:]]. *)
Definition slice_from_1 (s : string) : string :=
  substring 1 (String.length s - 1) s.

Definition dockerfileTemplate_text : string :=
  slice_from_1
    (LF +:+ "# Code generated by gendockerfile. DO NOT EDIT." +:+ LF +:+
     "FROM golang:latest" +:+ LF +:+
     "WORKDIR /go/src/go.elastic.co/apm" +:+ LF +:+
     "{{range .Imports}}RUN go get -v {{.}}" +:+ LF +:+
     "{{end}}" +:+ LF +:+
     "ADD . /go/src/go.elastic.co/apm" +:+ LF).

Definition dockerfileTemplate : list template.node :=
  template.Must (template.Parse dockerfileTemplate_text).

(** ** The spec's reading of the rendered document *)

Definition preamble : string :=
  "# Code generated by gendockerfile. DO NOT EDIT." +:+ LF +:+
  "FROM golang:latest" +:+ LF +:+
  "WORKDIR /go/src/go.elastic.co/apm" +:+ LF.

Definition fetch_line (importPath : string) : string :=
  "RUN go get -v " +:+ importPath +:+ LF.

Definition copy_line : string :=
  "ADD . /go/src/go.elastic.co/apm" +:+ LF.

(** The document as the spec describes it: preamble, one line per import,
    copy directive. *)
Definition document_as_specified (Imports : list string) : string :=
  preamble +:+ String.concat EmptyString (map fetch_line Imports) +:+ copy_line.

(** ** The world [main] runs in *)

Record Flags := mkFlags {
  baseFlag : string;
  outFlag : string;
  diffFlag : bool;
}.

(** What [diff -c] prints when its two inputs differ. *)
Inductive stdout_entry :=
| ContextDiff (old new : string).

Inductive stderr_entry :=
| LogFatal (err : error)
| DiffNoSuchFile.

(** [outFile] is the content of the file that the path [outFile] of the
    program names (base directory, then scripts, then the output flag);
    [None] when there is no such file.  [stdout] and [stderr] hold what
    [log.Fatal] and the diff subprocess write.  The go list subprocess is
    handed the same standard error ([cmd.Stderr = os.Stderr]); what it
    chooses to print there is its own output and is not recorded, so
    nothing is stated about standard error beyond these entries. *)
Record World := mkWorld {
  outFile : option string;
  stdout : list stdout_entry;
  stderr : list stderr_entry;
}.

(** What the surroundings answer during one run. *)
Record Env := mkEnv {
  go_list_starts : bool;
  go_list_stdout : Stream;
  map_range : range_order;
  create_succeeds : bool;
  (** [Some n]: writes to the file fail once [n] bytes are written. *)
  write_capacity : option nat;
}.

(** A computation either runs to a value or ends the process through
    [log.Fatal]. *)
Definition M (A : Type) : Type := World → (error + A) * World.

#[global] Instance M_ret : MRet M := λ A (a : A) w, (inr a, w).

#[global] Instance M_bind : MBind M := λ A B (f : A → M B) (m : M A) w,
  match m w with
  | (inr a, w') => f a w'
  | (inl err, w') => (inl err, w')
  end.

Module log.

(** [log.Fatal(err)]: print to stderr, then [os.Exit(1)]. *)
Definition Fatal {A : Type} (err : error) : M A := λ w,
  (inl err, {| outFile := outFile w; stdout := stdout w;
               stderr := stderr w ++ [LogFatal err] |}).

End log.

Definition exit_status {A : Type} (r : error + A) : Z :=
  match r with inl _ => 1 | inr _ => 0 end.

(** [cmd.StdoutPipe()] and [cmd.Start()] *)
Definition start_go_list (env : Env) : M unit :=
  if go_list_starts env then mret () else log.Fatal exec_StartError.

Definition read_packages (env : Env) : M (gmap string bool) :=
  match decode_loop (records (go_list_stdout env))
                    (failure (go_list_stdout env)) ∅ with
  | inl err => log.Fatal err
  | inr externalImports => mret externalImports
  end.

(** Where [out] points. *)
Inductive Writer :=
| ToBuffer
| ToFile.

(** [os.Create(outFile)]: creates the file, or truncates it. *)
Definition os_Create (env : Env) : M Writer := λ w,
  if create_succeeds env
  then (inr ToFile, {| outFile := Some EmptyString; stdout := stdout w;
                       stderr := stderr w |})
  else log.Fatal os_CreateError w.

Definition file_append (bytes : string) : M unit := λ w,
  (inr (), {| outFile := Some (default EmptyString (outFile w) +:+ bytes);
              stdout := stdout w; stderr := stderr w |}).

(** [dockerfileTemplate.Execute(out, &data)]; the value is what [buf]
    holds afterwards. *)
Definition execute_to (env : Env) (out : Writer) (Imports : list string)
    : M string :=
  let doc := template.Execute dockerfileTemplate Imports in
  match out with
  | ToBuffer => mret doc
  | ToFile =>
      match write_capacity env with
      | Some n =>
          if decide (n < String.length doc)%nat
          then _ ← file_append (substring 0 n doc); log.Fatal io_WriteError
          else _ ← file_append doc; mret EmptyString
      | None => _ ← file_append doc; mret EmptyString
      end
  end.

(** [diff -c outFile -]: output and exit status. *)
Definition diff_c (file : option string) (stdin : string)
    : list stdout_entry * list stderr_entry * Z :=
  match file with
  | None => ([], [DiffNoSuchFile], 2)
  | Some old =>
      if decide (old = stdin) then ([], [], 0)
      else ([ContextDiff old stdin], [], 1)
  end.

(** [cmd.Run()] of the diff command, and [log.Fatal] on its error. *)
Definition run_diff (buf : string) : M unit := λ w,
  let '(printed, complaints, code) := diff_c (outFile w) buf in
  let w' := {| outFile := outFile w; stdout := stdout w ++ printed;
               stderr := stderr w ++ complaints |} in
  if code =? 0 then (inr (), w') else log.Fatal (exec_ExitError code) w'.

Definition main (flags : Flags) (env : Env) : M unit :=
  _ ← start_go_list env;
  externalImports ← read_packages env;
  let Imports := external_imports (map_range env) externalImports in
  out ← (if negb (diffFlag flags) then os_Create env else mret ToBuffer);
  buf ← execute_to env out Imports;
  if diffFlag flags then run_diff buf else mret ().

(** The document a run renders, when it gets that far. *)
Definition rendered (env : Env) : option string :=
  if go_list_starts env then
    match decode_loop (records (go_list_stdout env))
                      (failure (go_list_stdout env)) ∅ with
    | inr externalImports =>
        Some (template.Execute dockerfileTemplate
                (external_imports (map_range env) externalImports))
    | inl _ => None
    end
  else None.

(** ** The spec's reading of the table *)

(** [p] is the own import path of a scanned record. *)
Definition scanned (rs : list build.Package) (p : string) : Prop :=
  p ∈ build.ImportPath <$> rs.

(** [p] occurs in a build-time or test-time import list of a record. *)
Definition imported (rs : list build.Package) (p : string) : Prop :=
  p ∈ rs ≫= all_imports.

(** The words of the characterisation of the external list: [p] is listed
    by [pkg] as a build-time import, as an import of its in-package tests
    or as an import of its external tests. *)
Definition listed_import (pkg : build.Package) (p : string) : Prop :=
  p ∈ build.Imports pkg ∨ p ∈ build.TestImports pkg ∨
  p ∈ build.XTestImports pkg.

(** [p] occurs in an import list of some record of the stream. *)
Definition occurs_in_import_lists (rs : list build.Package) (p : string)
    : Prop :=
  ∃ pkg, pkg ∈ rs ∧ listed_import pkg p.

#[global] Instance scanned_dec rs p : Decision (scanned rs p).
Proof. unfold scanned. apply _. Defined.

#[global] Instance imported_dec rs p : Decision (imported rs p).
Proof. unfold imported. apply _. Defined.

(** The table entries that the collecting loop keeps. *)
Definition is_external_entry (kv : string * bool) : Prop := kv.2 = true.

#[global] Instance is_external_entry_dec kv : Decision (is_external_entry kv).
Proof. unfold is_external_entry. apply _. Defined.

(** Worked inputs. *)
Definition example_com_foo_bar : string := "example.com/foo/bar".
Definition golang_org_x_tools : string := "golang.org/x/tools".

Definition pkg_importer : build.Package :=
  build.mkPackage "apm" [example_com_foo_bar; "fmt"] [] [].

Definition pkg_scanned_later : build.Package :=
  build.mkPackage example_com_foo_bar ["fmt"] [] [].

(** The two packages of the worked example, with their own import paths
    left open. *)
Definition package_A (path : string) : build.Package :=
  build.mkPackage path [example_com_foo_bar; "fmt"] [] [].

Definition package_B (path : string) : build.Package :=
  build.mkPackage path [example_com_foo_bar; golang_org_x_tools] [] [].

(** A package that lists one external import for its build and another
    only for its external tests. *)
Definition pkg_test_importer : build.Package :=
  build.mkPackage "apm/b" [example_com_foo_bar] ["testing"]
                  [golang_org_x_tools].

(** A scanned package whose external test imports the package itself. *)
Definition pkg_tools : build.Package :=
  build.mkPackage golang_org_x_tools [example_com_foo_bar] []
                  [golang_org_x_tools].

(** Surroundings for worked runs. *)
Definition env_truncated_stream : Env :=
  {| go_list_starts := true;
     go_list_stdout :=
       {| records := [package_A "apm"];
          failure := Some (json_DecodeError "unexpected EOF") |};
     map_range := id;
     create_succeeds := true;
     write_capacity := None |}.

Definition env_worked_example : Env :=
  {| go_list_starts := true;
     go_list_stdout := clean_stream [package_A "apm"; package_B "apm/b"];
     map_range := reverse;
     create_succeeds := true;
     write_capacity := None |}.

Definition doc_worked_example : string :=
  template.Execute dockerfileTemplate
    [example_com_foo_bar; golang_org_x_tools].

Definition flags_diff : Flags :=
  {| baseFlag := "."; outFlag := "Dockerfile-testing"; diffFlag := true |}.

Definition flags_write : Flags :=
  {| baseFlag := "."; outFlag := "Dockerfile-testing"; diffFlag := false |}.

Definition world_with (content : option string) : World :=
  {| outFile := content; stdout := []; stderr := [] |}.

(** ** Notions for further properties of the run *)

(** No byte of [s] is a line feed. *)
Definition newline_free (s : string) : Prop := ¬ contains "010"%char s.

(** Writing [doc] to the file does not run into the write limit. *)
Definition write_fits (env : Env) (doc : string) : Prop :=
  match write_capacity env with
  | None => True
  | Some n => (String.length doc ≤ n)%nat
  end.

(** The world after a write-mode run that went through. *)
Definition world_written (doc : string) (w : World) : World :=
  {| outFile := Some doc; stdout := stdout w; stderr := stderr w |}.

(** [pkg_importer] with its imports spread over the test lists. *)
Definition pkg_importer_tests : build.Package :=
  build.mkPackage "apm" ["fmt"] [example_com_foo_bar]
                  [example_com_foo_bar; "fmt"].

(** A package that imports the standard library and a scanned package. *)
Definition pkg_internal_only : build.Package :=
  build.mkPackage "go.elastic.co/apm/model"
                  ["fmt"; "net/http"; "go.elastic.co/apm"] [] [].

Definition pkg_module_root : build.Package :=
  build.mkPackage "go.elastic.co/apm" ["fmt"] ["testing"]
                  ["go.elastic.co/apm"].


Definition env_worked_example_write : Env :=
  {| go_list_starts := true;
     go_list_stdout := clean_stream [package_A "apm"; package_B "apm/b"];
     map_range := reverse;
     create_succeeds := true;
     write_capacity := None |}.

#[global] Instance newline_free_dec s : Decision (newline_free s).
Proof. unfold newline_free. apply _. Defined.

(** An import path with a line feed in it, and the two paths it reads as
    once rendered. *)
Definition path_with_newline : string :=
  "example.com/a" +:+ LF +:+ "RUN go get -v example.com/b".

(** * Proofs *)

(** ** Facts about IndexRune and slicing *)

Lemma append_String a (s t : string) :
  String a s +:+ t = String a (s +:+ t).
Proof. reflexivity. Qed.

Lemma IndexRune_range s c : -1 ≤ strings.IndexRune s c.
Proof.
  induction s as [|a s IH]; simpl; [lia|].
  destruct (Ascii.eqb a c); [lia|].
  destruct (Z.eqb_spec (strings.IndexRune s c) (-1)); lia.
Qed.

Lemma IndexRune_absent s c :
  strings.IndexRune s c = -1 ↔ ¬ contains c s.
Proof.
  unfold contains. induction s as [|a s IH]; simpl.
  - tauto.
  - destruct (Ascii.eqb_spec a c) as [->|Hne].
    + split; [lia|]. intros H. destruct H. by left.
    + pose proof (IndexRune_range s c).
      destruct (Z.eqb_spec (strings.IndexRune s c) (-1)) as [E|E].
      * split; [|done]. intros _ [?|?]; [done|]. by apply IH.
      * split; [lia|]. intros H1. exfalso. apply E, IH. tauto.
  Qed.

Lemma IndexRune_present s c :
  strings.IndexRune s c ≠ -1 ↔ contains c s.
Proof.
  rewrite IndexRune_absent. destruct (decide (contains c s)); tauto.
Qed.

(** A found index splits the string around the first occurrence. *)
Lemma IndexRune_split s c r :
  strings.IndexRune s c = r → r ≠ -1 →
  ¬ contains c (slice_to s r) ∧
  ∃ post, s = (slice_to s r +:+ String c post).
Proof.
  unfold slice_to, contains. revert r.
  induction s as [|a s IH]; simpl; intros r Hr Hne; [lia|].
  destruct (Ascii.eqb_spec a c) as [->|Hac].
  - subst r. simpl. split; [tauto|]. by exists s.
  - pose proof (IndexRune_range s c).
    destruct (Z.eqb_spec (strings.IndexRune s c) (-1)) as [E|E]; [lia|].
    destruct (IH _ eq_refl E) as [Hno [post Hpost]].
    subst r. replace (Z.to_nat (1 + strings.IndexRune s c))
      with (S (Z.to_nat (strings.IndexRune s c))) by lia.
    simpl. split.
    + intros [?|?]; [done|tauto].
    + exists post. rewrite append_String. by f_equal.
Qed.

(** The first segment of a path is unique. *)
Lemma first_segment_slice p pre :
  first_segment p pre →
  strings.IndexRune p "/"%char ≠ -1 ∧
  pre = slice_to p (strings.IndexRune p "/"%char).
Proof.
  unfold first_segment, contains, slice_to. intros [Hno [post ->]].
  induction pre as [|a pre IH]; rewrite ?append_String; simpl in *.
  - done.
  - destruct (Ascii.eqb_spec a "/"%char) as [->|Hne]; [tauto|].
    destruct IH as [IH1 IH2]; [tauto|].
    pose proof (IndexRune_range (pre +:+ String "/"%char post) "/"%char).
    destruct (Z.eqb_spec (strings.IndexRune (pre +:+ String "/" post) "/")
                (-1)) as [E|E]; [done|].
    split; [lia|].
    replace (Z.to_nat (1 + strings.IndexRune (pre +:+ String "/" post) "/"))
      with (S (Z.to_nat (strings.IndexRune (pre +:+ String "/" post) "/")))
      by lia.
    simpl. by rewrite <- IH2.
Qed.

(** ** Claims about isExternal *)

Example isExternal_samples :
  isExternal "example.com/foo/bar" = true ∧
  isExternal "fmt" = false ∧
  isExternal "net/http" = false ∧
  isExternal "gopkg.in" = false ∧
  isExternal "internal/v1.2/x" = false ∧
  isExternal "/a.b" = false.
Proof. by vm_compute. Qed.

(** C1: a path is classified external exactly when it contains a '/' and the
    part before its first '/' contains a '.'; a path without any '/' is
    classified internal. *)
Theorem isExternal_rule (p : string) :
  (isExternal p = true ↔ external_by_rule p) ∧
  (¬ contains "/"%char p → isExternal p = false).
Proof.
  unfold isExternal, external_by_rule. split.
  - destruct (Z.eqb_spec (strings.IndexRune p "/"%char) (-1)) as [E|E].
    + split; [done|]. intros [pre [Hseg _]].
      by destruct (first_segment_slice _ _ Hseg).
    + destruct (IndexRune_split p "/"%char _ eq_refl E) as [Hno Hpost].
      rewrite negb_true_iff, Z.eqb_neq, IndexRune_present. split.
      * intros Hdot. eexists. by split; [split|].
      * intros [pre [Hseg Hdot]].
        by destruct (first_segment_slice _ _ Hseg) as [_ <-].
  - intros Hno. apply IndexRune_absent in Hno. by rewrite Hno.
Qed.

(** ** The classification table *)

Lemma classify_import_lookup m q p :
  classify_import m q !! p =
  match m !! p with
  | Some b => Some b
  | None => if decide (p = q) then Some (isExternal p) else None
  end.
Proof.
  unfold classify_import. destruct (m !! q) as [bq|] eqn:Hq.
  - destruct (m !! p) eqn:Hp; [done|]. case_decide; congruence.
  - rewrite lookup_insert. destruct (decide (q = p)) as [->|Hne].
    + rewrite Hq. by rewrite decide_True.
    + destruct (m !! p); [done|]. by rewrite decide_False.
Qed.

Lemma classify_imports_lookup l m p :
  foldl classify_import m l !! p =
  match m !! p with
  | Some b => Some b
  | None => if decide (p ∈ l) then Some (isExternal p) else None
  end.
Proof.
  revert m. induction l as [|q l IH]; intros m; cbn [foldl].
  - destruct (m !! p); [done|].
    case_decide; [by exfalso; eapply elem_of_nil|done].
  - rewrite IH, classify_import_lookup.
    destruct (m !! p); [done|].
    pose proof (elem_of_cons l p q).
    repeat case_decide; try done; tauto.
Qed.

Lemma record_package_lookup m pkg p :
  record_package m pkg !! p =
  if decide (p = build.ImportPath pkg) then Some false
  else match m !! p with
       | Some b => Some b
       | None => if decide (p ∈ all_imports pkg)
                 then Some (isExternal p) else None
       end.
Proof.
  unfold record_package. rewrite classify_imports_lookup, lookup_insert.
  destruct (decide (build.ImportPath pkg = p)) as [<-|Hne].
  - by rewrite decide_True.
  - by destruct (decide (p = build.ImportPath pkg)) as [->|].
Qed.

(** A record changes an existing entry only through its own import path. *)
Lemma record_package_keeps m pkg p b :
  m !! p = Some b →
  record_package m pkg !! p =
  Some (if decide (p = build.ImportPath pkg) then false else b).
Proof.
  intros Hp. rewrite record_package_lookup, Hp. by case_decide.
Qed.

Lemma classification_table_snoc rs pkg :
  classification_table (rs ++ [pkg]) =
  record_package (classification_table rs) pkg.
Proof. unfold classification_table. by rewrite foldl_app. Qed.

Lemma scanned_snoc rs pkg p :
  scanned (rs ++ [pkg]) p ↔ scanned rs p ∨ p = build.ImportPath pkg.
Proof.
  unfold scanned. rewrite fmap_app, elem_of_app. simpl.
  by rewrite list_elem_of_singleton.
Qed.

Lemma imported_snoc rs pkg p :
  imported (rs ++ [pkg]) p ↔ imported rs p ∨ p ∈ all_imports pkg.
Proof.
  unfold imported. rewrite bind_app, elem_of_app. simpl.
  by rewrite app_nil_r.
Qed.

(** The table after any stream of records, entry by entry. *)
Lemma classification_table_lookup rs p :
  classification_table rs !! p =
  if decide (scanned rs p) then Some false
  else if decide (imported rs p) then Some (isExternal p)
  else None.
Proof.
  induction rs as [|pkg rs IH] using rev_ind.
  - change (classification_table []) with (∅ : gmap string bool).
    rewrite lookup_empty. unfold scanned, imported.
    repeat case_decide; try done; by exfalso; eapply elem_of_nil.
  - rewrite classification_table_snoc, record_package_lookup, IH.
    pose proof (scanned_snoc rs pkg p). pose proof (imported_snoc rs pkg p).
    repeat case_decide; try done; tauto.
Qed.

(** C2 (as amended): an entry of the table keeps its value while later
    records are processed, except that a later record whose own import path
    equals the entry's path sets it to internal. *)
Theorem classification_kept_unless_scanned
    (rs later : list build.Package) (p : string) (b : bool) :
  classification_table rs !! p = Some b →
  classification_table (rs ++ later) !! p =
  Some (if decide (scanned later p) then false else b).
Proof.
  intros Hp. induction later as [|pkg later IH] using rev_ind.
  - rewrite app_nil_r, Hp. unfold scanned.
    case_decide; [by exfalso; eapply elem_of_nil|done].
  - rewrite app_assoc, classification_table_snoc.
    rewrite (record_package_keeps _ _ _ _ IH).
    pose proof (scanned_snoc later pkg p).
    repeat case_decide; try done; tauto.
Qed.

Lemma classification_kept_unless_scanned_witness :
  classification_table ([pkg_importer] ++ [pkg_scanned_later])
    !! example_com_foo_bar = Some false.
Proof.
  apply (classification_kept_unless_scanned
           [pkg_importer] [pkg_scanned_later] example_com_foo_bar true).
  vm_compute. reflexivity.
Defined.

(** C2 fails as stated: a path entered as an external import is reset to
    internal by a later record whose own import path it is. *)
Lemma first_classification_overwritten :
  classification_table [pkg_importer] !! example_com_foo_bar = Some true ∧
  classification_table ([pkg_importer] ++ [pkg_scanned_later])
    !! example_com_foo_bar = Some false.
Proof. split; vm_compute; reflexivity. Qed.

(** ** Collecting and sorting *)

Lemma collect_external_filter kvs :
  collect_external kvs = (filter is_external_entry kvs).*1.
Proof.
  unfold collect_external.
  enough (∀ acc, foldl (λ (Imports : list string) (kv : string * bool),
                   if kv.2 then Imports ++ [kv.1] else Imports) acc kvs
                 = acc ++ (filter is_external_entry kvs).*1) as H by apply H.
  induction kvs as [|[k [|]] kvs IH]; intros acc; cbn [foldl].
  - by rewrite app_nil_r.
  - rewrite IH, filter_cons_True by done. simpl. by rewrite <- app_assoc.
  - rewrite IH, filter_cons_False; [done|]. by intros ?.
Qed.

Lemma collect_external_elem kvs p :
  p ∈ collect_external kvs ↔ (p, true) ∈ kvs.
Proof.
  rewrite collect_external_filter, list_elem_of_fmap. split.
  - intros [[k b] [-> [Hb Hin]%list_elem_of_filter]].
    unfold is_external_entry in Hb. simpl in *. by subst.
  - intros Hin. exists (p, true). split; [done|].
    by apply list_elem_of_filter.
Qed.

Lemma collect_external_Permutation kvs kvs' :
  kvs ≡ₚ kvs' → collect_external kvs ≡ₚ collect_external kvs'.
Proof. intros H. rewrite !collect_external_filter. by rewrite H. Qed.

Lemma collect_external_NoDup kvs :
  NoDup kvs.*1 → NoDup (collect_external kvs).
Proof.
  rewrite collect_external_filter. intros Hnd.
  eapply sublist_NoDup; [exact Hnd|].
  apply fmap_sublist, sublist_filter.
Qed.

(** [sort.Strings] is modelled by a merge sort; any algorithm that returns a
    sorted rearrangement of its input returns the same list. *)
Lemma sort_Strings_unique (l sorted : list string) :
  Sorted String.le sorted → sorted ≡ₚ l → sort.Strings l = sorted.
Proof.
  intros Hs Hp. apply (Sorted_unique String.le); [|done|].
  - apply (Sorted_merge_sort String.le).
  - unfold sort.Strings. by rewrite merge_sort_Permutation.
Qed.

Example sort_Strings_bytewise :
  sort.Strings ["b"; "a/c"; "B"; "a"; "a.b"] = ["B"; "a"; "a.b"; "a/c"; "b"].
Proof. by vm_compute. Qed.

Section iteration_order.

Context (o : range_order) (Ho : valid_order o).
Context (m : gmap string bool).

Lemma external_imports_Permutation :
  external_imports o m ≡ₚ collect_external (map_to_list m).
Proof.
  unfold external_imports, sort.Strings.
  rewrite merge_sort_Permutation. apply collect_external_Permutation, Ho.
Qed.

Lemma external_imports_elem p :
  p ∈ external_imports o m ↔ m !! p = Some true.
Proof.
  rewrite external_imports_Permutation, collect_external_elem.
  apply elem_of_map_to_list.
Qed.

Lemma external_imports_NoDup : NoDup (external_imports o m).
Proof.
  rewrite external_imports_Permutation.
  apply collect_external_NoDup, NoDup_fst_map_to_list.
Qed.

Lemma external_imports_Sorted : Sorted String.le (external_imports o m).
Proof. apply (Sorted_merge_sort String.le). Qed.

(** Whatever sorting algorithm and iteration order are used, there is one
    possible result. *)
Lemma external_imports_unique l :
  Sorted String.le l → NoDup l → (∀ p, p ∈ l ↔ m !! p = Some true) →
  external_imports o m = l.
Proof.
  intros Hsorted Hnodup Helem.
  apply (Sorted_unique String.le);
    [apply external_imports_Sorted|done|].
  apply NoDup_Permutation; [apply external_imports_NoDup|done|].
  intros p. by rewrite external_imports_elem, Helem.
Qed.

End iteration_order.

Lemma valid_order_id : valid_order id.
Proof. by intros kvs. Qed.

Lemma valid_order_reverse : valid_order reverse.
Proof. intros kvs. apply reverse_Permutation. Qed.

Lemma external_imports_order_irrelevant o1 o2 (m : gmap string bool) :
  valid_order o1 → valid_order o2 →
  external_imports o1 m = external_imports o2 m.
Proof.
  intros H1 H2. apply external_imports_unique; [done| | |].
  - by apply external_imports_Sorted.
  - by apply external_imports_NoDup.
  - intros p. by apply external_imports_elem.
Qed.

Lemma scanned_Permutation rs rs' p :
  rs ≡ₚ rs' → scanned rs p ↔ scanned rs' p.
Proof. unfold scanned. by intros ->. Qed.

Lemma imported_Permutation rs rs' p :
  rs ≡ₚ rs' → imported rs p ↔ imported rs' p.
Proof. unfold imported. by intros ->. Qed.

Lemma classification_table_external rs p :
  classification_table rs !! p = Some true ↔
  imported rs p ∧ isExternal p = true ∧ ¬ scanned rs p.
Proof.
  rewrite classification_table_lookup.
  repeat case_decide; split; try done; try tauto.
  - intros [= ->]. tauto.
  - intros (_ & -> & _). done.
Qed.

(** ** Claims about the external list *)

(** C3: the external list that is rendered has no duplicate entries and is
    in non-decreasing lexicographic order, for every stream of records and
    every order in which the table is ranged over. *)
Theorem external_list_sorted_without_duplicates
    (rs : list build.Package) (o : range_order) :
  valid_order o →
  NoDup (external_imports o (classification_table rs)) ∧
  Sorted String.le (external_imports o (classification_table rs)).
Proof.
  intros Ho. split.
  - by apply external_imports_NoDup.
  - by apply external_imports_Sorted.
Qed.

Lemma external_list_sorted_without_duplicates_witness :
  NoDup (external_imports reverse
           (classification_table [package_A "apm"; package_B "apm/b"])) ∧
  Sorted String.le (external_imports reverse
           (classification_table [package_A "apm"; package_B "apm/b"])).
Proof.
  apply (external_list_sorted_without_duplicates
           [package_A "apm"; package_B "apm/b"] reverse).
  intros kvs. apply reverse_Permutation.
Defined.

Lemma imported_occurs rs p :
  imported rs p ↔ occurs_in_import_lists rs p.
Proof.
  unfold imported, occurs_in_import_lists, listed_import, all_imports.
  rewrite list_elem_of_bind. split.
  - intros (pkg & Hin & Hpkg). exists pkg. split; [done|].
    apply elem_of_app in Hin as [Hin|Hin]; [|tauto].
    apply elem_of_app in Hin. tauto.
  - intros (pkg & Hpkg & Hin). exists pkg. split; [|done].
    rewrite !elem_of_app. tauto.
Qed.

(** C10: the external list is the sorted, duplicate-free list of exactly the
    paths that occur in the Imports, TestImports or XTestImports of some
    record, pass the externality test and are no scanned record's own
    import path; the order of the records and of the iteration over the
    table do not matter. *)
Theorem external_list_characterised
    (rs : list build.Package) (o : range_order) :
  valid_order o →
  Sorted String.le (external_imports o (classification_table rs)) ∧
  NoDup (external_imports o (classification_table rs)) ∧
  (∀ p, p ∈ external_imports o (classification_table rs) ↔
        occurs_in_import_lists rs p ∧ isExternal p = true ∧
        ¬ scanned rs p) ∧
  (∀ rs' o', rs' ≡ₚ rs → valid_order o' →
     external_imports o' (classification_table rs') =
     external_imports o (classification_table rs)).
Proof.
  intros Ho. split; [by apply external_imports_Sorted|].
  split; [by apply external_imports_NoDup|]. split.
  - intros p. rewrite external_imports_elem by done.
    by rewrite classification_table_external, imported_occurs.
  - intros rs' o' Hrs Ho'. apply external_imports_unique; [done| | |].
    + by apply external_imports_Sorted.
    + by apply external_imports_NoDup.
    + intros p. rewrite external_imports_elem by done.
      rewrite !classification_table_external.
      by rewrite (scanned_Permutation _ _ _ Hrs),
                 (imported_Permutation _ _ _ Hrs).
Qed.

Lemma external_list_characterised_witness :
  (golang_org_x_tools ∈
     external_imports reverse
       (classification_table [package_A "apm"; pkg_test_importer])) ∧
  ("fmt" ∉
     external_imports reverse
       (classification_table [package_A "apm"; pkg_test_importer])) ∧
  (external_imports id
     (classification_table [pkg_test_importer; package_A "apm"]) =
   external_imports reverse
     (classification_table [package_A "apm"; pkg_test_importer])).
Proof.
  destruct (external_list_characterised
              [package_A "apm"; pkg_test_importer] reverse)
    as (_ & _ & Hmem & Hperm).
  { intros kvs. apply reverse_Permutation. }
  split; [|split].
  - apply Hmem. split; [|split].
    + exists pkg_test_importer. split; [by right; left|].
      right. right. by left.
    + reflexivity.
    + apply (bool_decide_unpack _). by vm_compute.
  - intros Hin%Hmem. destruct Hin as (_ & Hext & _). by vm_compute in Hext.
  - apply Hperm; [apply perm_swap|]. intros kvs. reflexivity.
Defined.

(** C4 (as amended): package A with an own import path that is not
    external, importing example.com/foo/bar and fmt, followed by package B
    with an own import path that is neither example.com/foo/bar nor
    golang.org/x/tools, importing example.com/foo/bar and
    golang.org/x/tools, give exactly the list example.com/foo/bar,
    golang.org/x/tools, and fmt is not in it. *)
Theorem worked_example_external_list
    (A B : build.Package) (o : range_order) :
  valid_order o →
  isExternal (build.ImportPath A) = false →
  all_imports A ≡ₚ [example_com_foo_bar; "fmt"] →
  all_imports B ≡ₚ [example_com_foo_bar; golang_org_x_tools] →
  build.ImportPath B ≠ example_com_foo_bar →
  build.ImportPath B ≠ golang_org_x_tools →
  external_imports o (classification_table [A; B]) =
    [example_com_foo_bar; golang_org_x_tools] ∧
  "fmt" ∉ external_imports o (classification_table [A; B]).
Proof.
  intros Ho HA HiA HiB HB1 HB2.
  assert (external_imports o (classification_table [A; B]) =
          [example_com_foo_bar; golang_org_x_tools]) as ->.
  { apply external_imports_unique; [done| | |].
    - repeat constructor; by vm_compute.
    - apply (bool_decide_unpack _). by vm_compute.
    - intros p. rewrite classification_table_external.
      unfold imported, scanned. simpl. rewrite app_nil_r, elem_of_app.
      rewrite HiA, HiB, !elem_of_cons, !elem_of_nil. split.
      + assert (∀ q, isExternal q = true → q ≠ build.ImportPath A) as HnA
          by (intros q Hq ->; congruence).
        intros [->|[->|[]]].
        * split; [by left; left|]. split; [by vm_compute|].
          intros [E|[E|[]]]; [|by symmetry in E].
          by apply (HnA example_com_foo_bar).
        * split; [by right; right; left|]. split; [by vm_compute|].
          intros [E|[E|[]]]; [|by symmetry in E].
          by apply (HnA golang_org_x_tools).
      + intros (Himp & Hext & _).
        destruct Himp as [[->|[->|[]]]|[->|[->|[]]]].
        * by left.
        * exfalso. revert Hext. by vm_compute.
        * by left.
        * by right; left. }
  split; [done|]. apply (bool_decide_unpack _). by vm_compute.
Qed.

Lemma worked_example_external_list_witness :
  external_imports reverse
    (classification_table [package_A "apm"; package_B "apm/module/b"]) =
    [example_com_foo_bar; golang_org_x_tools] ∧
  "fmt" ∉ external_imports reverse
    (classification_table [package_A "apm"; package_B "apm/module/b"]).
Proof.
  apply (worked_example_external_list
           (package_A "apm") (package_B "apm/module/b") reverse).
  - intros kvs. apply reverse_Permutation.
  - reflexivity.
  - reflexivity.
  - reflexivity.
  - by vm_compute.
  - by vm_compute.
Defined.

(** C4 fails as stated: when package B is golang.org/x/tools itself, that
    path is a scanned package and is left out of the list. *)
Lemma worked_example_with_scanned_import :
  valid_order id ∧
  isExternal (build.ImportPath (package_A "apm")) = false ∧
  all_imports (package_A "apm") = [example_com_foo_bar; "fmt"] ∧
  all_imports pkg_tools = [example_com_foo_bar; golang_org_x_tools] ∧
  external_imports id (classification_table [package_A "apm"; pkg_tools])
    = [example_com_foo_bar] ∧
  external_imports id (classification_table [package_A "apm"; pkg_tools])
    ≠ [example_com_foo_bar; golang_org_x_tools].
Proof.
  split; [exact valid_order_id|].
  assert (external_imports id
            (classification_table [package_A "apm"; pkg_tools])
          = [example_com_foo_bar]) as E by (by vm_compute).
  split; [reflexivity|]. split; [reflexivity|]. split; [reflexivity|].
  split; [exact E|]. rewrite E. discriminate.
Qed.

(** ** Claims about the rendered document *)

Lemma dockerfileTemplate_nodes :
  dockerfileTemplate =
  [template.Text preamble;
   template.RangeImports
     [template.ItemText "RUN go get -v "; template.ItemDot;
      template.ItemText LF];
   template.Text (LF +:+ copy_line)].
Proof. by vm_compute. Qed.

Lemma concat_empty_sep_cons (x : string) (xs : list string) :
  String.concat EmptyString (x :: xs) = x +:+ String.concat EmptyString xs.
Proof.
  destruct xs as [|y ys]; simpl.
  - induction x as [|a x IH]; [done|]. rewrite append_String. by f_equal.
  - done.
Qed.

Lemma execute_range_lines (Imports : list string) :
  map (template.exec_items
         [template.ItemText "RUN go get -v "; template.ItemDot;
          template.ItemText LF]) Imports
  = map fetch_line Imports.
Proof. by apply map_ext. Qed.

(** C8 (as amended): the rendered document is the three-line preamble, then
    one fetch line per external import in list order, then an empty line,
    then the directive that copies the source tree. *)
Theorem rendered_document_layout (Imports : list string) :
  template.Execute dockerfileTemplate Imports =
  preamble +:+ String.concat EmptyString (map fetch_line Imports) +:+
  LF +:+ copy_line.
Proof.
  rewrite dockerfileTemplate_nodes. unfold template.Execute.
  cbn [map template.exec_node]. rewrite execute_range_lines.
  by rewrite 2!concat_empty_sep_cons.
Qed.

(** C8 fails as stated: an empty line separates the fetch lines from the
    copy directive, also when there is no external import. *)
Lemma rendered_document_has_separator_line :
  template.Execute dockerfileTemplate [] ≠ document_as_specified [] ∧
  template.Execute dockerfileTemplate [example_com_foo_bar]
    ≠ document_as_specified [example_com_foo_bar].
Proof. split; by vm_compute. Qed.

(** ** The run *)

Lemma decode_loop_clean rs m :
  decode_loop rs None m = inr (foldl record_package m rs).
Proof. revert m. induction rs as [|pkg rs IH]; intros m; simpl; [done|apply IH]. Qed.

Lemma decode_loop_fails rs err m :
  err ≠ io_EOF → decode_loop rs (Some err) m = inl err.
Proof.
  intros Herr. revert m. induction rs as [|pkg rs IH]; intros m; simpl.
  - by rewrite decide_True.
  - apply IH.
Qed.

Lemma rendered_clean st rs o c wc :
  rendered (mkEnv st (clean_stream rs) o c wc) =
  if st then Some (template.Execute dockerfileTemplate
                     (external_imports o (classification_table rs)))
  else None.
Proof. unfold rendered. simpl. by rewrite decode_loop_clean. Qed.

(** A run that renders nothing ends in [log.Fatal] before it touches the
    file. *)
Lemma main_not_rendered flags env w :
  rendered env = None → ∃ err, main flags env w = log.Fatal err w.
Proof.
  unfold rendered, main, start_go_list, read_packages, mbind, M_bind.
  destruct (go_list_starts env); simpl; [|by eexists].
  destruct (decode_loop _ _ _) as [err|m]; simpl; [by eexists|done].
Qed.

(** In diff mode a run that renders hands the document to diff. *)
Lemma main_diff_rendered flags env w doc :
  diffFlag flags = true → rendered env = Some doc →
  main flags env w = run_diff doc w.
Proof.
  unfold rendered, main, start_go_list, read_packages, execute_to,
    mbind, M_bind, mret, M_ret.
  intros ->. destruct (go_list_starts env); simpl; [|done].
  destruct (decode_loop _ _ _) as [err|m]; simpl; [done|].
  by intros [= <-].
Qed.

Lemma run_diff_outFile doc w : outFile (run_diff doc w).2 = outFile w.
Proof.
  unfold run_diff, diff_c. destruct w as [[old|] printed logged]; simpl.
  - by case_decide.
  - done.
Qed.

(** C5: when the metadata stream ends in a decode error the run ends in
    [log.Fatal] with exit status 1, and the output file is as it was before
    the run: not created, not truncated, not written. *)
Theorem decode_error_leaves_output_untouched
    (flags : Flags) (env : Env) (w : World) :
  decode_fails (go_list_stdout env) →
  (∃ err, main flags env w = log.Fatal err w) ∧
  exit_status (main flags env w).1 = 1 ∧
  outFile (main flags env w).2 = outFile w ∧
  stdout (main flags env w).2 = stdout w.
Proof.
  intros (err & Hfail & Herr).
  destruct (main_not_rendered flags env w) as [err' Hmain].
  - unfold rendered. rewrite Hfail, decode_loop_fails by done.
    by destruct (go_list_starts env).
  - rewrite Hmain. split; [by eexists|done].
Qed.

Lemma decode_error_leaves_output_untouched_witness :
  outFile (main flags_write env_truncated_stream
             (world_with (Some "previous content"))).2
  = Some "previous content".
Proof.
  apply (decode_error_leaves_output_untouched flags_write
           env_truncated_stream (world_with (Some "previous content"))).
  exists (json_DecodeError "unexpected EOF"). split; [reflexivity|discriminate].
Defined.

(** C6: in diff mode, when the file on disk holds exactly the freshly
    rendered document the run ends with exit status 0 and prints nothing;
    when it holds something else the run prints the difference and ends in
    [log.Fatal], exit status 1. *)
Theorem diff_mode_reports_drift
    (flags : Flags) (env : Env) (w : World) (old doc : string) :
  diffFlag flags = true →
  rendered env = Some doc →
  outFile w = Some old →
  (old = doc → main flags env w = (inr (), w)) ∧
  (old ≠ doc →
     exit_status (main flags env w).1 = 1 ∧
     (main flags env w).1 = inl (exec_ExitError 1) ∧
     stdout (main flags env w).2 = stdout w ++ [ContextDiff old doc]).
Proof.
  intros Hdiff Hdoc Hold. rewrite (main_diff_rendered _ _ _ _ Hdiff Hdoc).
  unfold run_diff, diff_c. rewrite Hold. split; intros Hcmp.
  - rewrite decide_True by done. simpl. rewrite !app_nil_r.
    destruct w; simpl in *. by subst.
  - rewrite decide_False by done. done.
Qed.

Lemma diff_mode_reports_drift_witness :
  main flags_diff env_worked_example (world_with (Some doc_worked_example))
    = (inr (), world_with (Some doc_worked_example)) ∧
  stdout (main flags_diff env_worked_example
            (world_with (Some "FROM scratch"))).2
    = [ContextDiff "FROM scratch" doc_worked_example].
Proof.
  split.
  - apply (diff_mode_reports_drift flags_diff env_worked_example
             (world_with (Some doc_worked_example))
             doc_worked_example doc_worked_example);
      [reflexivity|by vm_compute|reflexivity|reflexivity].
  - apply (diff_mode_reports_drift flags_diff env_worked_example
             (world_with (Some "FROM scratch"))
             "FROM scratch" doc_worked_example);
      [reflexivity|by vm_compute|reflexivity|by vm_compute].
Defined.

(** C7: in diff mode the output file is left exactly as it was, whatever
    the input: it is neither created, truncated nor written. *)
Theorem diff_mode_leaves_file_untouched
    (flags : Flags) (env : Env) (w : World) :
  diffFlag flags = true →
  outFile (main flags env w).2 = outFile w.
Proof.
  intros Hdiff. destruct (rendered env) as [doc|] eqn:Hdoc.
  - rewrite (main_diff_rendered _ _ _ _ Hdiff Hdoc). apply run_diff_outFile.
  - destruct (main_not_rendered flags env w Hdoc) as [err ->]. done.
Qed.

Lemma diff_mode_leaves_file_untouched_witness :
  outFile (main flags_diff env_worked_example
             (world_with (Some "FROM scratch"))).2
  = Some "FROM scratch".
Proof.
  apply (diff_mode_leaves_file_untouched flags_diff env_worked_example
           (world_with (Some "FROM scratch"))).
  reflexivity.
Defined.

(** C9: two runs on the same input give the same result, byte for byte,
    whatever order each of them ranges over the table in. *)
Theorem generation_deterministic
    (flags : Flags) (starts : bool) (s : Stream) (creates : bool)
    (capacity : option nat) (o1 o2 : range_order) (w : World) :
  valid_order o1 → valid_order o2 →
  rendered (mkEnv starts s o1 creates capacity) =
    rendered (mkEnv starts s o2 creates capacity) ∧
  main flags (mkEnv starts s o1 creates capacity) w =
    main flags (mkEnv starts s o2 creates capacity) w.
Proof.
  intros H1 H2.
  unfold rendered, main, start_go_list, read_packages, mbind, M_bind.
  simpl. destruct starts; simpl; [|done].
  destruct (decode_loop _ _ _) as [err|m]; simpl; [done|].
  by rewrite (external_imports_order_irrelevant o1 o2 m H1 H2).
Qed.

Lemma generation_deterministic_witness :
  main flags_write
    (mkEnv true (clean_stream [package_A "apm"; package_B "apm/b"])
           id true None) (world_with None) =
  main flags_write
    (mkEnv true (clean_stream [package_A "apm"; package_B "apm/b"])
           reverse true None) (world_with None).
Proof.
  apply (generation_deterministic flags_write true
           (clean_stream [package_A "apm"; package_B "apm/b"]) true None
           id reverse (world_with None)).
  - intros kvs. reflexivity.
  - intros kvs. apply reverse_Permutation.
Defined.

(** In write mode the same run creates the file and writes the document. *)
Example write_mode_creates_document :
  main flags_write env_worked_example (world_with None) =
  (inr (), world_with (Some doc_worked_example)).
Proof. by vm_compute. Qed.

Example write_mode_create_failure :
  main flags_write
    (mkEnv true (clean_stream [package_A "apm"]) id false None)
    (world_with (Some "previous content")) =
  (inl os_CreateError,
   {| outFile := Some "previous content"; stdout := [];
      stderr := [LogFatal os_CreateError] |}).
Proof. by vm_compute. Qed.

(** * Further properties of the code *)

(** ** isExternal on related paths *)

Lemma append_assoc (s t u : string) : (s +:+ t) +:+ u = s +:+ (t +:+ u).
Proof.
  induction s as [|a s IH]; [done|]. rewrite !append_String. by f_equal.
Qed.

(** The classification of a path is read off its first segment alone. *)
Lemma isExternal_first_segment p pre :
  first_segment p pre →
  isExternal p = negb (strings.IndexRune pre "."%char =? -1).
Proof.
  intros Hseg. destruct (first_segment_slice _ _ Hseg) as [Hr Hpre].
  unfold isExternal. rewrite <- Hpre.
  by destruct (Z.eqb_spec (strings.IndexRune p "/"%char) (-1)).
Qed.

(** X1: whatever is appended to a path that already has a '/' does not
    change its classification: a package and everything below it are
    classified alike. *)
Theorem isExternal_below_path (p q : string) :
  contains "/"%char p → isExternal (p +:+ q) = isExternal p.
Proof.
  intros Hslash%IndexRune_present.
  destruct (IndexRune_split p "/"%char _ eq_refl Hslash) as [Hno [post Hpost]].
  set (pre := slice_to p (strings.IndexRune p "/"%char)) in *.
  assert (first_segment p pre) as Hp by (split; [done|by exists post]).
  assert (first_segment (p +:+ q) pre) as Hpq.
  { split; [done|]. exists (post +:+ q).
    rewrite Hpost at 1. by rewrite append_assoc, append_String. }
  by rewrite (isExternal_first_segment _ _ Hp),
             (isExternal_first_segment _ _ Hpq).
Qed.

Lemma isExternal_below_path_witness :
  isExternal ("github.com/pkg" +:+ "/errors") = isExternal "github.com/pkg".
Proof.
  apply (isExternal_below_path "github.com/pkg" "/errors").
  unfold contains. simpl. tauto.
Defined.

(** X2: the empty path and every path that begins with '/' are classified
    internal, whatever follows the '/'. *)
Theorem isExternal_rooted_path (rest : string) :
  isExternal EmptyString = false ∧
  isExternal (String "/"%char rest) = false.
Proof. split; reflexivity. Qed.

(** X3: a relative import path, one that begins with ./ or ../, is
    classified external, because its first segment holds a '.'. *)
Theorem isExternal_relative_path (rest : string) :
  isExternal ("./" +:+ rest) = true ∧
  isExternal ("../" +:+ rest) = true.
Proof. split; reflexivity. Qed.

(** ** The table as a function of what was scanned and imported *)

(** X4: two streams of records with the same own import paths and the same
    imported paths build the same table, however the imports are spread
    over records and over build-time and test-time lists and however often
    they repeat. *)
Theorem classification_table_extensional (rs rs' : list build.Package) :
  (∀ p, scanned rs p ↔ scanned rs' p) →
  (∀ p, imported rs p ↔ imported rs' p) →
  classification_table rs = classification_table rs'.
Proof.
  intros Hs Hi. apply map_eq. intros p.
  rewrite !classification_table_lookup.
  specialize (Hs p). specialize (Hi p).
  repeat case_decide; try done; tauto.
Qed.

Lemma classification_table_extensional_witness :
  classification_table [pkg_importer] =
  classification_table [pkg_importer_tests; pkg_importer].
Proof.
  apply (classification_table_extensional
           [pkg_importer] [pkg_importer_tests; pkg_importer]).
  - intros p. unfold scanned. simpl.
    rewrite !elem_of_cons, !elem_of_nil. tauto.
  - intros p. unfold imported. simpl.
    rewrite !elem_of_cons, !elem_of_nil. tauto.
Defined.

(** X5: the table has an entry for a path exactly when the path is the own
    import path of a scanned record or occurs in an import list, and every
    scanned record's own import path ends up internal, also when it looks
    external and also when it was imported before it was scanned. *)
Theorem classification_table_entries (rs : list build.Package) (p : string) :
  (is_Some (classification_table rs !! p) ↔ scanned rs p ∨ imported rs p) ∧
  (scanned rs p → classification_table rs !! p = Some false).
Proof.
  rewrite classification_table_lookup. split.
  - repeat case_decide; split; intros Hentry; try done; try tauto;
      try (by eexists); by destruct Hentry as [? [=]].
  - intros Hs. by rewrite decide_True.
Qed.

(** X6: when every imported path is internal by the rule or is itself a
    scanned package, the external list is empty and the document has no
    fetch line: preamble, empty line, copy directive.  The empty stream is
    one such case. *)
Theorem no_external_import_no_fetch_line
    (rs : list build.Package) (o : range_order) :
  valid_order o →
  (∀ p, imported rs p → isExternal p = false ∨ scanned rs p) →
  external_imports o (classification_table rs) = [] ∧
  template.Execute dockerfileTemplate
    (external_imports o (classification_table rs)) =
  preamble +:+ LF +:+ copy_line.
Proof.
  intros Ho Hint.
  assert (external_imports o (classification_table rs) = []) as ->.
  { apply external_imports_unique; [done|constructor|constructor|].
    intros p. rewrite classification_table_external. split.
    - by intros ?%elem_of_nil.
    - intros (Himp & Hext & Hns). destruct (Hint p Himp); [congruence|done]. }
  split; [done|]. by vm_compute.
Qed.

Lemma no_external_import_no_fetch_line_witness :
  external_imports reverse
    (classification_table [pkg_internal_only; pkg_module_root]) = [].
Proof.
  apply (no_external_import_no_fetch_line
           [pkg_internal_only; pkg_module_root] reverse).
  - intros kvs. apply reverse_Permutation.
  - intros p. unfold imported, scanned. simpl.
    rewrite !elem_of_cons, !elem_of_nil.
    intros [->|[->|[->|[->|[->|[->|[]]]]]]];
      first [by left; vm_compute | right; tauto].
Defined.

(** ** Write mode *)

(** What a write-mode run does once the document is rendered. *)
Lemma main_write_rendered flags env w doc :
  diffFlag flags = false → rendered env = Some doc →
  main flags env w =
  if create_succeeds env then
    match write_capacity env with
    | Some n =>
        if decide (n < String.length doc)%nat
        then (inl io_WriteError,
              {| outFile := Some (substring 0 n doc); stdout := stdout w;
                 stderr := stderr w ++ [LogFatal io_WriteError] |})
        else (inr (), world_written doc w)
    | None => (inr (), world_written doc w)
    end
  else log.Fatal os_CreateError w.
Proof.
  unfold rendered, main, start_go_list, read_packages, execute_to, os_Create,
    mbind, M_bind, mret, M_ret.
  intros ->. destruct (go_list_starts env); simpl; [|done].
  destruct (decode_loop _ _ _) as [err|m]; simpl; [done|].
  intros [= <-]. destruct (create_succeeds env); simpl; [|done].
  destruct (write_capacity env) as [n|]; simpl; [|done].
  by case_decide.
Qed.

(** X7: a write-mode run whose input decodes, whose file can be created and
    written, returns normally (exit status 0) and leaves the file holding
    exactly the rendered document, whatever the file held before; it
    writes nothing to stdout. *)
Theorem write_mode_replaces_file
    (flags : Flags) (env : Env) (w : World) (doc : string) :
  diffFlag flags = false →
  rendered env = Some doc →
  create_succeeds env = true →
  write_fits env doc →
  (main flags env w).1 = inr () ∧
  outFile (main flags env w).2 = Some doc ∧
  stdout (main flags env w).2 = stdout w.
Proof.
  intros Hmode Hdoc Hcreate Hfits.
  rewrite (main_write_rendered _ _ _ _ Hmode Hdoc), Hcreate.
  unfold write_fits in Hfits. destruct (write_capacity env) as [n|]; [|done].
  rewrite decide_False; [done|lia].
Qed.

Lemma write_mode_replaces_file_witness :
  (main flags_write env_worked_example
     (world_with (Some "FROM scratch"))).1 = inr () ∧
  outFile (main flags_write env_worked_example
             (world_with (Some "FROM scratch"))).2
    = Some doc_worked_example ∧
  stdout (main flags_write env_worked_example
            (world_with (Some "FROM scratch"))).2 = [].
Proof.
  apply (write_mode_replaces_file flags_write env_worked_example
           (world_with (Some "FROM scratch")) doc_worked_example).
  - reflexivity.
  - by vm_compute.
  - reflexivity.
  - exact I.
Defined.

(** X8: when the file cannot be created, a write-mode run ends in
    [log.Fatal] with the creation error and the file is left as it was. *)
Theorem write_mode_create_failure_is_fatal
    (flags : Flags) (env : Env) (w : World) (doc : string) :
  diffFlag flags = false →
  rendered env = Some doc →
  create_succeeds env = false →
  main flags env w = log.Fatal os_CreateError w ∧
  exit_status (main flags env w).1 = 1 ∧
  outFile (main flags env w).2 = outFile w.
Proof.
  intros Hmode Hdoc Hcreate.
  by rewrite (main_write_rendered _ _ _ _ Hmode Hdoc), Hcreate.
Qed.

Lemma write_mode_create_failure_is_fatal_witness :
  outFile (main flags_write
             (mkEnv true (clean_stream [package_A "apm"]) id false None)
             (world_with (Some "previous content"))).2
  = Some "previous content".
Proof.
  apply (write_mode_create_failure_is_fatal flags_write
           (mkEnv true (clean_stream [package_A "apm"]) id false None)
           (world_with (Some "previous content"))
           (template.Execute dockerfileTemplate [example_com_foo_bar])).
  - reflexivity.
  - by vm_compute.
  - reflexivity.
Defined.

(** X9: in either mode, a run that ends in [log.Fatal] with anything but a
    write error has left the file exactly as it was. *)
Theorem fatal_run_leaves_file
    (flags : Flags) (env : Env) (w : World) (err : error) :
  (main flags env w).1 = inl err →
  err ≠ io_WriteError →
  outFile (main flags env w).2 = outFile w.
Proof.
  intros Herr Hne. destruct (rendered env) as [doc|] eqn:Hdoc.
  - destruct (diffFlag flags) eqn:Hmode.
    + rewrite (main_diff_rendered _ _ _ _ Hmode Hdoc). apply run_diff_outFile.
    + rewrite (main_write_rendered _ _ _ _ Hmode Hdoc) in Herr |- *.
      destruct (create_succeeds env); [|done].
      destruct (write_capacity env) as [n|]; [|done].
      case_decide; [|done]. simpl in Herr. congruence.
  - by destruct (main_not_rendered flags env w Hdoc) as [err' ->].
Qed.

Lemma fatal_run_leaves_file_witness :
  outFile (main flags_write env_truncated_stream
             (world_with (Some "FROM scratch"))).2
  = Some "FROM scratch".
Proof.
  apply (fatal_run_leaves_file flags_write env_truncated_stream
           (world_with (Some "FROM scratch"))
           (json_DecodeError "unexpected EOF")).
  - by vm_compute.
  - discriminate.
Defined.

(** X10: after a run that ends with exit status 0, in write mode or in diff
    mode, the file holds exactly the document rendered from the input. *)
Theorem successful_run_file_is_document
    (flags : Flags) (env : Env) (w : World) :
  (main flags env w).1 = inr () →
  ∃ doc, rendered env = Some doc ∧ outFile (main flags env w).2 = Some doc.
Proof.
  intros Hok. destruct (rendered env) as [doc|] eqn:Hdoc.
  - exists doc. split; [done|]. destruct (diffFlag flags) eqn:Hmode.
    + rewrite (main_diff_rendered _ _ _ _ Hmode Hdoc) in Hok |- *.
      rewrite run_diff_outFile. revert Hok. unfold run_diff, diff_c.
      destruct (outFile w) as [old|]; [|done].
      case_decide; [by subst|done].
    + rewrite (main_write_rendered _ _ _ _ Hmode Hdoc) in Hok |- *.
      destruct (create_succeeds env); [|done].
      destruct (write_capacity env) as [n|]; [|done].
      by case_decide.
  - by destruct (main_not_rendered flags env w Hdoc) as [err Hmain];
      rewrite Hmain in Hok.
Qed.

Lemma successful_run_file_is_document_witness :
  ∃ doc, rendered env_worked_example = Some doc ∧
    outFile (main flags_write env_worked_example (world_with None)).2
    = Some doc.
Proof.
  apply (successful_run_file_is_document flags_write env_worked_example
           (world_with None)).
  by vm_compute.
Defined.

(** ** Write mode and diff mode together *)


Lemma run_diff_same doc w :
  outFile w = Some doc → run_diff doc w = (inr (), w).
Proof.
  intros Hfile. unfold run_diff, diff_c. rewrite Hfile.
  rewrite decide_True by done. simpl. rewrite !app_nil_r.
  destruct w; simpl in *. by subst.
Qed.




(** X12: running write mode a second time changes nothing: the second run
    ends as the first did and leaves the world the first run left. *)
Theorem write_mode_idempotent
    (flags : Flags) (env : Env) (w : World) (doc : string) :
  diffFlag flags = false →
  rendered env = Some doc →
  create_succeeds env = true →
  write_fits env doc →
  main flags env (main flags env w).2 = main flags env w.
Proof.
  intros Hmode Hdoc Hcreate Hfits.
  rewrite (main_write_rendered _ _ w _ Hmode Hdoc).
  rewrite (main_write_rendered _ _ _ _ Hmode Hdoc), Hcreate.
  unfold write_fits in Hfits. destruct (write_capacity env) as [n|]; [|done].
  destruct (decide (n < String.length doc)%nat); [lia|done].
Qed.

Lemma write_mode_idempotent_witness :
  main flags_write env_worked_example_write
       (main flags_write env_worked_example_write (world_with None)).2
  = main flags_write env_worked_example_write (world_with None).
Proof.
  apply (write_mode_idempotent flags_write env_worked_example_write
           (world_with None) doc_worked_example).
  - reflexivity.
  - by vm_compute.
  - reflexivity.
  - exact I.
Defined.

(** ** Diff mode as a gate *)

(** X13: a diff-mode run whose input decodes ends with exit status 0
    exactly when the file exists and holds the rendered document; a missing
    file fails the run like a differing one. *)
Theorem diff_mode_passes_iff_file_current
    (flags : Flags) (env : Env) (w : World) (doc : string) :
  diffFlag flags = true →
  rendered env = Some doc →
  exit_status (main flags env w).1 = 0 ↔ outFile w = Some doc.
Proof.
  intros Hmode Hdoc. rewrite (main_diff_rendered _ _ _ _ Hmode Hdoc). split.
  - unfold run_diff, diff_c. destruct (outFile w) as [old|]; [|done].
    case_decide; [by subst|done].
  - intros Hfile. by rewrite (run_diff_same _ _ Hfile).
Qed.

Lemma diff_mode_passes_iff_file_current_witness :
  exit_status (main flags_diff env_worked_example (world_with None)).1 = 0
  ↔ outFile (world_with None) = Some doc_worked_example.
Proof.
  apply (diff_mode_passes_iff_file_current flags_diff env_worked_example
           (world_with None) doc_worked_example).
  - reflexivity.
  - by vm_compute.
Defined.

(** ** The document determines the list *)

Lemma execute_dockerfileTemplate (Imports : list string) :
  template.Execute dockerfileTemplate Imports =
  preamble +:+ String.concat EmptyString (map fetch_line Imports) +:+
  LF +:+ copy_line.
Proof.
  rewrite dockerfileTemplate_nodes. unfold template.Execute.
  cbn [map template.exec_node]. rewrite execute_range_lines.
  by rewrite 2!concat_empty_sep_cons.
Qed.

Lemma append_Empty (s : string) : EmptyString +:+ s = s.
Proof. reflexivity. Qed.

(** Two lines without a line feed in them that agree up to their ends are
    the same line. *)
Lemma split_at_line_feed (p q r1 r2 : string) :
  newline_free p → newline_free q →
  p +:+ LF +:+ r1 = q +:+ LF +:+ r2 → p = q ∧ r1 = r2.
Proof.
  unfold newline_free, contains, LF. revert q.
  induction p as [|a p IH]; intros [|b q] Hp Hq;
    rewrite ?append_String, ?append_Empty, ?append_String.
  - by intros [= ->].
  - intros [= <- _]. destruct Hq. by left.
  - intros [= -> _]. destruct Hp. by left.
  - intros [= -> Htail]. destruct (IH q) as [-> ->]; [| |done|done].
    + intros Hin. apply Hp. by right.
    + intros Hin. apply Hq. by right.
Qed.

Lemma fetch_lines_inj (l1 l2 : list string) :
  Forall newline_free l1 → Forall newline_free l2 →
  String.concat EmptyString (map fetch_line l1) +:+ LF +:+ copy_line =
  String.concat EmptyString (map fetch_line l2) +:+ LF +:+ copy_line →
  l1 = l2.
Proof.
  intros H1. revert l2.
  induction H1 as [|p l1 Hp H1 IH]; intros l2 H2; destruct H2 as [|q l2 Hq H2];
    cbn [map]; rewrite ?concat_empty_sep_cons; unfold fetch_line;
    rewrite ?append_assoc.
  - done.
  - intros Heq. exfalso. revert Heq. by vm_compute.
  - intros Heq. exfalso. revert Heq. by vm_compute.
  - intros Heq%(inj (String.app _)).
    destruct (split_at_line_feed _ _ _ _ Hp Hq Heq) as [-> Hrest].
    f_equal. by apply IH.
Qed.

(** X14: two lists of import paths without line feeds that render to the
    same document are the same list: nothing of the external list is lost
    in the document. *)
Theorem rendered_document_determines_imports (l1 l2 : list string) :
  Forall newline_free l1 → Forall newline_free l2 →
  template.Execute dockerfileTemplate l1 =
    template.Execute dockerfileTemplate l2 →
  l1 = l2.
Proof.
  intros H1 H2. rewrite !execute_dockerfileTemplate.
  intros Heq%(inj (String.app _)). by apply fetch_lines_inj.
Qed.

Lemma rendered_document_determines_imports_witness :
  [example_com_foo_bar; golang_org_x_tools] =
  external_imports reverse
    (classification_table [package_A "apm"; package_B "apm/b"]).
Proof.
  apply (rendered_document_determines_imports
           [example_com_foo_bar; golang_org_x_tools]
           (external_imports reverse
              (classification_table [package_A "apm"; package_B "apm/b"]))).
  - apply (bool_decide_unpack _). by vm_compute.
  - apply (bool_decide_unpack _). by vm_compute.
  - by vm_compute.
Defined.

(** The line feed condition is needed: a path with a line feed in it
    renders like two paths. *)
Example rendered_document_newline_ambiguity :
  template.Execute dockerfileTemplate [path_with_newline] =
  template.Execute dockerfileTemplate ["example.com/a"; "example.com/b"].
Proof. by vm_compute. Qed.

(** X15: in diff mode, when the file on disk was rendered from a list of
    external imports other than the one the input now gives, the run
    prints the difference and ends in [log.Fatal] with exit status 1
    (paths without line feeds). *)
Theorem diff_mode_detects_changed_imports
    (flags : Flags) (rs : list build.Package) (o : range_order)
    (creates : bool) (capacity : option nat) (w : World)
    (previous : list string) :
  diffFlag flags = true →
  Forall newline_free previous →
  Forall newline_free (external_imports o (classification_table rs)) →
  outFile w = Some (template.Execute dockerfileTemplate previous) →
  previous ≠ external_imports o (classification_table rs) →
  exit_status
    (main flags (mkEnv true (clean_stream rs) o creates capacity) w).1 = 1 ∧
  stdout (main flags (mkEnv true (clean_stream rs) o creates capacity) w).2 =
    stdout w ++
    [ContextDiff (template.Execute dockerfileTemplate previous)
       (template.Execute dockerfileTemplate
          (external_imports o (classification_table rs)))].
Proof.
  intros Hmode Hprev Hnow Hfile Hchanged.
  rewrite (main_diff_rendered flags _ w _ Hmode
             (rendered_clean true rs o creates capacity)).
  unfold run_diff, diff_c. rewrite Hfile.
  rewrite decide_False; [done|].
  rewrite !execute_dockerfileTemplate.
  intros Heq%(inj (String.app _)). by apply Hchanged, fetch_lines_inj.
Qed.

Lemma diff_mode_detects_changed_imports_witness :
  exit_status
    (main flags_diff
       (mkEnv true (clean_stream [package_A "apm"; package_B "apm/b"])
              reverse true None)
       (world_with (Some (template.Execute dockerfileTemplate
                            [example_com_foo_bar])))).1 = 1.
Proof.
  apply (diff_mode_detects_changed_imports flags_diff
           [package_A "apm"; package_B "apm/b"] reverse true None
           (world_with (Some (template.Execute dockerfileTemplate
                                [example_com_foo_bar])))
           [example_com_foo_bar]).
  - reflexivity.
  - apply (bool_decide_unpack _). by vm_compute.
  - apply (bool_decide_unpack _). by vm_compute.
  - reflexivity.
  - by vm_compute.
Defined.
